(** * Virtual try-on front end: the event handlers of [src/index.tsx]

    The page keeps two module-level slots ([personFileData], [outfitFileData]),
    reads uploaded files through [FileReader], sends both encoded images with a
    fixed instruction to a generative service and shows the returned image or a
    message.  The handlers are embedded as functions on an explicit [World]
    (module variables, the DOM properties the script writes, the console, the
    calls made to the service and the asynchronous operations still pending);
    the browser's event loop is a [step] function over [Event]s. *)

From Stdlib Require Import Ascii.
From Stdlib Require String.
From stdpp Require Import base option list strings.

(** ** Data *)

(** [type: 'person' | 'outfit'] *)
Inductive SlotType : Type := person | outfit.

(** A [File] as the script sees it: only [file.type] is read; the name tells
    files of one drop apart.  The bytes are delivered by the [FileReader]. *)
Record File : Type := { file_name : string; file_type : string }.

(** [{ mimeType: string; data: string }] (lines 19-20 and 31-36).  At run time
    [data] is [split(',')[1]] of the reader's result, which is [undefined]
    when the result holds no comma: [None] stands for [undefined]. *)
Record EncodedImage : Type := { mimeType : string; data : option string }.

(** A part of a request or of a response: [{ inlineData?, text? }]. *)
Record Part : Type := { inlineData : option EncodedImage; text : option string }.

(** The response of [ai.models.generateContent], as far as the script reads it:
    [response.candidates?.[0]?.content?.parts]. *)
Record Content : Type := { parts : option (list Part) }.
Record Candidate : Type := { content : option Content }.
Record Response : Type := { candidates : option (list Candidate) }.

Inductive Modality : Type := IMAGE | TEXT.

(** The argument of [ai.models.generateContent] (lines 126-138). *)
Record Request : Type := {
  model : string;
  contents_parts : list Part;
  responseModalities : list Modality
}.

(** A thrown JavaScript value. *)
Record Exn : Type := { exn_name : string; exn_message : string }.

(** An asynchronous operation a handler has started and whose callback or
    continuation has not run yet. *)
Inductive Task : Type :=
  | PreviewRead (file : File) (type : SlotType)
      (* the reader of handleFileUpload (lines 53-70), waiting for onload *)
  | PartRead (file : File) (type : SlotType)
      (* the reader of fileToGenerativePart, awaited at line 62 *)
  | GenerateCall (request : Request)
      (* the call awaited at line 126 *)
  | Settled.

(** ** The world *)

(** What the script touches of one upload slot: the preview image, the drop
    zone and the file input. *)
Record UploadUI : Type := {
  preview_src : string;
  preview_visible : bool;          (* classList has 'visible' *)
  dropZone_has_image : bool;       (* classList has 'has-image' *)
  dropZone_borderColor : string;
  input_files : option (list File)
}.

Record Page : Type := {
  personUI : UploadUI;
  outfitUI : UploadUI;
  generateButton_disabled : bool;
  resultsSection_visible : bool;   (* classList has 'visible' *)
  resultImage_src : string;
  resultImage_display : string;
  downloadButton_href : string;
  downloadButton_display : string;
  loader_display : string;
  errorContainer_textContent : string;
  errorContainer_display : string
}.

Record World : Type := {
  personFileData : option EncodedImage;
  outfitFileData : option EncodedImage;
  page : Page;
  console : list Exn;              (* the arguments of console.error, oldest first *)
  requests : list Request;         (* the calls of ai.models.generateContent, oldest first *)
  tasks : list Task                (* indexed by the order in which they were started *)
}.

(** *** Field updates *)

Definition set_preview (src : string) (u : UploadUI) : UploadUI :=
  {| preview_src := src; preview_visible := true; dropZone_has_image := true;
     dropZone_borderColor := dropZone_borderColor u; input_files := input_files u |}.

Definition set_borderColor (c : string) (u : UploadUI) : UploadUI :=
  {| preview_src := preview_src u; preview_visible := preview_visible u;
     dropZone_has_image := dropZone_has_image u;
     dropZone_borderColor := c; input_files := input_files u |}.

Definition set_input_files (fs : option (list File)) (u : UploadUI) : UploadUI :=
  {| preview_src := preview_src u; preview_visible := preview_visible u;
     dropZone_has_image := dropZone_has_image u;
     dropZone_borderColor := dropZone_borderColor u; input_files := fs |}.

Definition uploadUI (type : SlotType) (p : Page) : UploadUI :=
  match type with person => personUI p | outfit => outfitUI p end.

Definition set_uploadUI (type : SlotType) (u : UploadUI) (p : Page) : Page :=
  {| personUI := match type with person => u | outfit => personUI p end;
     outfitUI := match type with person => outfitUI p | outfit => u end;
     generateButton_disabled := generateButton_disabled p;
     resultsSection_visible := resultsSection_visible p;
     resultImage_src := resultImage_src p;
     resultImage_display := resultImage_display p;
     downloadButton_href := downloadButton_href p;
     downloadButton_display := downloadButton_display p;
     loader_display := loader_display p;
     errorContainer_textContent := errorContainer_textContent p;
     errorContainer_display := errorContainer_display p |}.

Definition set_generateButton_disabled (b : bool) (p : Page) : Page :=
  {| personUI := personUI p; outfitUI := outfitUI p;
     generateButton_disabled := b;
     resultsSection_visible := resultsSection_visible p;
     resultImage_src := resultImage_src p;
     resultImage_display := resultImage_display p;
     downloadButton_href := downloadButton_href p;
     downloadButton_display := downloadButton_display p;
     loader_display := loader_display p;
     errorContainer_textContent := errorContainer_textContent p;
     errorContainer_display := errorContainer_display p |}.

Definition set_resultsSection_visible (b : bool) (p : Page) : Page :=
  {| personUI := personUI p; outfitUI := outfitUI p;
     generateButton_disabled := generateButton_disabled p;
     resultsSection_visible := b;
     resultImage_src := resultImage_src p;
     resultImage_display := resultImage_display p;
     downloadButton_href := downloadButton_href p;
     downloadButton_display := downloadButton_display p;
     loader_display := loader_display p;
     errorContainer_textContent := errorContainer_textContent p;
     errorContainer_display := errorContainer_display p |}.

Definition set_resultImage (src display : string) (p : Page) : Page :=
  {| personUI := personUI p; outfitUI := outfitUI p;
     generateButton_disabled := generateButton_disabled p;
     resultsSection_visible := resultsSection_visible p;
     resultImage_src := src;
     resultImage_display := display;
     downloadButton_href := downloadButton_href p;
     downloadButton_display := downloadButton_display p;
     loader_display := loader_display p;
     errorContainer_textContent := errorContainer_textContent p;
     errorContainer_display := errorContainer_display p |}.

Definition set_downloadButton (href display : string) (p : Page) : Page :=
  {| personUI := personUI p; outfitUI := outfitUI p;
     generateButton_disabled := generateButton_disabled p;
     resultsSection_visible := resultsSection_visible p;
     resultImage_src := resultImage_src p;
     resultImage_display := resultImage_display p;
     downloadButton_href := href;
     downloadButton_display := display;
     loader_display := loader_display p;
     errorContainer_textContent := errorContainer_textContent p;
     errorContainer_display := errorContainer_display p |}.

Definition set_loader_display (d : string) (p : Page) : Page :=
  {| personUI := personUI p; outfitUI := outfitUI p;
     generateButton_disabled := generateButton_disabled p;
     resultsSection_visible := resultsSection_visible p;
     resultImage_src := resultImage_src p;
     resultImage_display := resultImage_display p;
     downloadButton_href := downloadButton_href p;
     downloadButton_display := downloadButton_display p;
     loader_display := d;
     errorContainer_textContent := errorContainer_textContent p;
     errorContainer_display := errorContainer_display p |}.

Definition set_errorContainer (textContent display : string) (p : Page) : Page :=
  {| personUI := personUI p; outfitUI := outfitUI p;
     generateButton_disabled := generateButton_disabled p;
     resultsSection_visible := resultsSection_visible p;
     resultImage_src := resultImage_src p;
     resultImage_display := resultImage_display p;
     downloadButton_href := downloadButton_href p;
     downloadButton_display := downloadButton_display p;
     loader_display := loader_display p;
     errorContainer_textContent := textContent;
     errorContainer_display := display |}.

Definition on_page (f : Page -> Page) (w : World) : World :=
  {| personFileData := personFileData w; outfitFileData := outfitFileData w;
     page := f (page w);
     console := console w; requests := requests w; tasks := tasks w |}.

Definition set_FileData (type : SlotType) (v : option EncodedImage) (w : World) : World :=
  {| personFileData := match type with person => v | outfit => personFileData w end;
     outfitFileData := match type with person => outfitFileData w | outfit => v end;
     page := page w;
     console := console w; requests := requests w; tasks := tasks w |}.

Definition set_console (c : list Exn) (w : World) : World :=
  {| personFileData := personFileData w; outfitFileData := outfitFileData w;
     page := page w;
     console := c; requests := requests w; tasks := tasks w |}.

Definition set_requests (r : list Request) (w : World) : World :=
  {| personFileData := personFileData w; outfitFileData := outfitFileData w;
     page := page w;
     console := console w; requests := r; tasks := tasks w |}.

Definition set_tasks (t : list Task) (w : World) : World :=
  {| personFileData := personFileData w; outfitFileData := outfitFileData w;
     page := page w;
     console := console w; requests := requests w; tasks := t |}.

(** The slot of a type, and the other type. *)
Definition FileData (type : SlotType) (w : World) : option EncodedImage :=
  match type with person => personFileData w | outfit => outfitFileData w end.

Definition other (type : SlotType) : SlotType :=
  match type with person => outfit | outfit => person end.

(** Starting an asynchronous operation, and marking one as finished. *)
Definition start_task (t : Task) (w : World) : World := set_tasks (tasks w ++ [t]) w.
Definition settle (n : nat) (w : World) : World := set_tasks (<[n := Settled]> (tasks w)) w.

(** ** JavaScript values *)

(** Truthiness of [object | null | undefined] and of [string | undefined]. *)
Definition truthy {A} (o : option A) : bool :=
  match o with Some _ => true | None => false end.

Definition truthy_string (o : option string) : bool :=
  match o with Some s => negb (String.eqb s "") | None => false end.

(** [a || b] on [string | undefined] with a string on the right. *)
Definition or_else (a : option string) (b : string) : string :=
  match a with
  | Some s => if String.eqb s "" then b else s
  | None => b
  end.

(** [`${v}`] for [string | undefined]. *)
Definition interpolate (v : option string) : string :=
  match v with Some s => s | None => "undefined" end.

(** [s.split(sep)] for a separator of one character. *)
Fixpoint split (sep : ascii) (s : string) : list string :=
  match s with
  | EmptyString => [EmptyString]
  | String c s' =>
      if Ascii.eqb c sep then EmptyString :: split sep s'
      else match split sep s' with
           | h :: t => String c h :: t
           | [] => [String c EmptyString]
           end
  end.

Definition TypeError (message : string) : Exn :=
  {| exn_name := "TypeError"; exn_message := message |}.

(** ** String constants of the script *)

Definition missing_input_message : string :=
  "Please upload both a person and an outfit image.".

Definition no_image_message : string :=
  "Sorry, I couldn't generate an image. Please try again with different images.".

Definition exception_message : string :=
  "An error occurred while generating the image. Please check the console for details.".

Definition model_name : string := "gemini-2.5-flash-image-preview".

(** The template literal of lines 117-124, with its line breaks and indentation. *)
Definition prompt : string :=
  "
      You are an expert virtual stylist. Your task is to perform a realistic virtual try-on.
      1.  **Preserve Identity:** The person's face, hair, and skin tone from the first image must remain completely unchanged.
      2.  **Replace Clothing:** Replace the clothing on the person in the first image with the complete outfit from the second image.
      3.  **Realistic Fit & Shading:** The new outfit must fit the person's body realistically. Pay close attention to proportions, draping, and how the fabric would naturally fall. Add natural shadows and highlights to the new outfit to make it look like it's part of the scene's lighting.
      4.  **New Background:** Generate a new, suitable background that complements the style of the new outfit. For example, a formal dress might get a backdrop of an elegant event, while a casual outfit might get a city street scene.
      5.  **Output:** Return only the final, edited image. Do not return any text.
    ".

(** ** Upload handlers *)

(** [reader.onloadend] of [fileToGenerativePart] (line 28).  After a failed
    read [reader.result] is [null] and [.split] throws inside the callback, so
    [resolve] is never called and the promise stays pending; otherwise the
    promise is resolved with [split(',')[1]]. *)
Definition fileToGenerativePart_onloadend (result : option string) : Exn + option string :=
  match result with
  | None => inl (TypeError "Cannot read properties of null (reading 'split')")
  | Some r => inr (split "," r !! 1)
  end.

(** The object [fileToGenerativePart] returns once the promise is resolved
    (lines 31-36). *)
Definition fileToGenerativePart (file : File) (base64 : option string) : Part :=
  {| inlineData := Some {| mimeType := file_type file; data := base64 |};
     text := None |}.

(** Lines 39-41. *)
Definition updateGenerateButtonState (w : World) : World :=
  on_page (set_generateButton_disabled
             (negb (truthy (personFileData w) && truthy (outfitFileData w)))) w.

(** Lines 43-47. *)
Definition displayError (message : string) (w : World) : World :=
  on_page (λ p, set_loader_display "none" (set_errorContainer message "block" p)) w.

(** Lines 50-53 and 70: nothing happens without a file, otherwise a reader is
    started on it. *)
Definition handleFileUpload (file : option File) (type : SlotType) (w : World) : World :=
  match file with
  | None => w
  | Some f => start_task (PreviewRead f type) w
  end.

(** [reader.onload] of [handleFileUpload], up to its [await] (lines 54-62):
    the preview is shown and the second reader is started. *)
Definition handleFileUpload_onload (result : string) (file : File) (type : SlotType)
    (w : World) : World :=
  start_task (PartRead file type)
    (on_page (λ p, set_uploadUI type (set_preview result (uploadUI type p)) p) w).

(** The rest of [reader.onload], after the [await] (lines 63-68). *)
Definition handleFileUpload_resume (part : Part) (type : SlotType) (w : World) : World :=
  updateGenerateButtonState (set_FileData type (inlineData part) w).

(** The [change] listeners (lines 73-74): [input.files?.[0] ?? null]. *)
Definition input_change (type : SlotType) (w : World) : World :=
  handleFileUpload (input_files (uploadUI type (page w)) ≫= (λ fs : list File, fs !! 0)) type w.

(** The drag-and-drop listeners (lines 79-95). *)
Definition dropZone_dragover (type : SlotType) (w : World) : World :=
  on_page (λ p, set_uploadUI type (set_borderColor "#8e44ad" (uploadUI type p)) p) w.

Definition dropZone_dragleave (type : SlotType) (w : World) : World :=
  on_page (λ p, set_uploadUI type (set_borderColor "#444" (uploadUI type p)) p) w.

Definition dropZone_drop (dataTransfer_files : option (list File)) (type : SlotType)
    (w : World) : World :=
  let w1 := on_page (λ p, set_uploadUI type (set_borderColor "#444" (uploadUI type p)) p) w in
  match dataTransfer_files with
  | Some files =>
      if bool_decide (0 < length files) then
        handleFileUpload (files !! 0) type
          (on_page (λ p, set_uploadUI type
                           (set_input_files (Some files) (uploadUI type p)) p) w1)
      else w1
  | None => w1
  end.

(** ** The generate button *)

(** Code that changes the world and either completes or throws. *)
Definition Js (A : Type) : Type := World → World * (Exn + A).

Definition js_bind {A B} (m : Js A) (k : A → Js B) : Js B :=
  λ w, match m w with
       | (w', inl e) => (w', inl e)
       | (w', inr a) => k a w'
       end.

(** An expression that reads nothing of the world: it has a value or throws. *)
Definition js_eval {A} (r : Exn + A) : Js A := λ w, (w, r).

(** A statement that cannot throw. *)
Definition js_do (f : World → World) : Js unit := λ w, (f w, inr tt).

Declare Scope js_scope.
Delimit Scope js_scope with js.
Notation "'let*' x ':=' m 'in' k" := (js_bind m (λ x, k))
  (at level 10, x name, m at level 100, k at level 200) : js_scope.

(** [try { body } catch (e) { handler } finally { final }] *)
Definition try_catch_finally (body : Js unit) (handler : Exn → World → World)
    (final : World → World) (w : World) : World :=
  match body w with
  | (w', inl e) => final (handler e w')
  | (w', inr _) => final w'
  end.

(** [response.candidates?.[0]?.content?.parts.find(pred)]: the chain stops
    with [undefined] at a missing [candidates], first candidate or [content];
    [.find] on a missing [parts] throws. *)
Definition first_candidate_find (pred : Part → bool) (response : Response)
    : Exn + option Part :=
  match (candidates response ≫= (λ cs : list Candidate, cs !! 0)) ≫= content with
  | None => inr None
  | Some c =>
      match parts c with
      | None => inl (TypeError "Cannot read properties of undefined (reading 'find')")
      | Some ps => inr (List.find pred ps)
      end
  end.

(** Lines 126-138: the request. *)
Definition generate_request (personFileData outfitFileData : EncodedImage) : Request :=
  {| model := model_name;
     contents_parts :=
       [ {| inlineData := Some personFileData; text := None |};
         {| inlineData := Some outfitFileData; text := None |};
         {| inlineData := None; text := Some prompt |} ];
     responseModalities := [IMAGE; TEXT] |}.

(** Calling [ai.models.generateContent]: the call is made and awaited. *)
Definition generateContent (request : Request) (w : World) : World :=
  start_task (GenerateCall request) (set_requests (requests w ++ [request]) w).

(** Lines 108-114. *)
Definition reset_ui (w : World) : World :=
  on_page (λ p,
    set_generateButton_disabled true
      (set_loader_display "block"
        (set_downloadButton (downloadButton_href p) "none"
          (set_resultImage (resultImage_src p) "none"
            (set_resultsSection_visible true
              (set_errorContainer (errorContainer_textContent p) "none" p)))))) w.

(** The click listener up to its [await] (lines 102-138). *)
Definition generate_click (w : World) : World :=
  match personFileData w, outfitFileData w with
  | Some pe, Some ou => generateContent (generate_request pe ou) (reset_ui w)
  | _, _ => displayError missing_input_message w
  end.

(** Lines 143-149. *)
Definition show_image (image : EncodedImage) (w : World) : World :=
  let imageUrl := "data:" +:+ mimeType image +:+ ";base64," +:+ interpolate (data image) in
  on_page (λ p,
    set_downloadButton imageUrl "inline-block" (set_resultImage imageUrl "block" p)) w.

(** The [try] block after the [await] (lines 126 and 140-154): the awaited
    call gives a response or throws. *)
Definition generate_try (outcome : Exn + Response) : Js unit :=
  (let* response := js_eval outcome in
   let* imagePart :=
     js_eval (first_candidate_find (λ part, truthy (inlineData part)) response) in
   match imagePart ≫= inlineData with
   | Some image => js_do (show_image image)
   | None =>
       let* textPart :=
         js_eval (first_candidate_find (λ part, truthy_string (text part)) response) in
       js_do (displayError (or_else (textPart ≫= text) no_image_message))
   end)%js.

(** Lines 156-158. *)
Definition generate_catch (e : Exn) (w : World) : World :=
  displayError exception_message (set_console (console w ++ [e]) w).

(** Lines 159-162. *)
Definition generate_finally (w : World) : World :=
  on_page (λ p, set_generateButton_disabled false (set_loader_display "none" p)) w.

(** The click listener from its [await] on. *)
Definition generate_resume (outcome : Exn + Response) (w : World) : World :=
  try_catch_finally (generate_try outcome) generate_catch generate_finally w.

(** ** The event loop *)

Inductive Event : Type :=
  | InputChange (type : SlotType) (files : option (list File))
      (* the user picked files: the browser sets input.files and fires change *)
  | DragOver (type : SlotType)
  | DragLeave (type : SlotType)
  | Drop (type : SlotType) (dataTransfer_files : option (list File))
  | Click
  | ReadEnd (task : nat) (result : option string)
      (* a reader finished: its data URL, or nothing after a failed read *)
  | ServiceEnd (task : nat) (outcome : Exn + Response).
      (* the awaited call was fulfilled or rejected *)

Definition step (ev : Event) (w : World) : World :=
  match ev with
  | InputChange type files =>
      input_change type
        (on_page (λ p, set_uploadUI type (set_input_files files (uploadUI type p)) p) w)
  | DragOver type => dropZone_dragover type w
  | DragLeave type => dropZone_dragleave type w
  | Drop type files => dropZone_drop files type w
  | Click =>
      (* a disabled button fires no click event *)
      if generateButton_disabled (page w) then w else generate_click w
  | ReadEnd n result =>
      match tasks w !! n with
      | Some (PreviewRead file type) =>
          (* onload fires after a successful read only *)
          match result with
          | Some r => handleFileUpload_onload r file type (settle n w)
          | None => settle n w
          end
      | Some (PartRead file type) =>
          match fileToGenerativePart_onloadend result with
          | inr base64 =>
              handleFileUpload_resume (fileToGenerativePart file base64) type (settle n w)
          | inl _ => settle n w
          end
      | _ => w
      end
  | ServiceEnd n outcome =>
      match tasks w !! n with
      | Some (GenerateCall _) => generate_resume outcome (settle n w)
      | _ => w
      end
  end.

Fixpoint run (evs : list Event) (w : World) : World :=
  match evs with
  | [] => w
  | ev :: evs' => run evs' (step ev w)
  end.

(** Modelled from the spec: the page markup (index.html) is not among the
    sources.  In the spec's state [Empty] nothing is uploaded, so no preview
    is shown and the file inputs are empty. *)
Definition initial_uploadUI : UploadUI :=
  {| preview_src := ""; preview_visible := false; dropZone_has_image := false;
     dropZone_borderColor := ""; input_files := Some [] |}.

(** Modelled from the spec: the page markup (index.html) is not among the
    sources.  The spec's state [Empty] has no upload and a trigger that is
    enabled only when both slots are populated, so the page starts with the
    trigger disabled and with nothing shown.  The two slots start as [null]
    (lines 19-20), and nothing has been logged, requested or started. *)
Definition initial_world : World :=
  {| personFileData := None; outfitFileData := None;
     page := {| personUI := initial_uploadUI; outfitUI := initial_uploadUI;
                generateButton_disabled := true;
                resultsSection_visible := false;
                resultImage_src := ""; resultImage_display := "none";
                downloadButton_href := ""; downloadButton_display := "none";
                loader_display := "none";
                errorContainer_textContent := ""; errorContainer_display := "none" |};
     console := []; requests := []; tasks := [] |}.

(** ** Predicates on worlds and events *)



(** A call of the service is awaited. *)
Definition call_pending (w : World) : Prop :=
  ∃ n request, tasks w !! n = Some (GenerateCall request).


(** The event that settles the awaited call [n]. *)
Definition ends_call (n : nat) (ev : Event) : Prop :=
  ∃ outcome, ev = ServiceEnd n outcome.


(** A file list that delivers no file: absent or empty. *)
Definition no_file (files : option (list File)) : Prop :=
  files = None ∨ files = Some [].

(** Source and visibility of the two previews. *)
Definition previews (w : World) : (string * bool) * (string * bool) :=
  ((preview_src (personUI (page w)), preview_visible (personUI (page w))),
   (preview_src (outfitUI (page w)), preview_visible (outfitUI (page w)))).


(** ** Sample data *)

Definition photo : File := {| file_name := "me.png"; file_type := "image/png" |}.
Definition dress : File := {| file_name := "dress.jpg"; file_type := "image/jpeg" |}.
Definition photo_url : string := "data:image/png;base64,iVBORw0KGgo=".
Definition dress_url : string := "data:image/jpeg;base64,/9j/4AAQ".

Definition photo_image : EncodedImage :=
  {| mimeType := "image/png"; data := Some "iVBORw0KGgo=" |}.
Definition dress_image : EncodedImage :=
  {| mimeType := "image/jpeg"; data := Some "/9j/4AAQ" |}.

(** The person is picked with the file input, the outfit is dropped; every
    read succeeds. *)
Definition both_uploads : list Event :=
  [ InputChange person (Some [photo]);
    ReadEnd 0 (Some photo_url); ReadEnd 1 (Some photo_url);
    Drop outfit (Some [dress]);
    ReadEnd 2 (Some dress_url); ReadEnd 3 (Some dress_url) ].

Definition ready_world : World := run both_uploads initial_world.

(** After the click, while the call (task 4) is awaited. *)
Definition generating_world : World := step Click ready_world.

(** What a user may do while the call is awaited: drag over a zone, replace
    the person image, and click again once the upload re-enabled the trigger. *)
Definition meanwhile : list Event :=
  [ DragOver person; InputChange person (Some [dress]);
    ReadEnd 5 (Some dress_url); ReadEnd 6 (Some dress_url); Click ].

Definition png_part : Part :=
  {| inlineData := Some {| mimeType := "image/png"; data := Some "ABC" |};
     text := None |}.

Definition caption_part : Part :=
  {| inlineData := None; text := Some "Here is your image." |}.

Definition png_candidate : Candidate :=
  {| content := Some {| parts := Some [caption_part; png_part] |} |}.

Definition png_response : Response := {| candidates := Some [png_candidate] |}.

Definition refusal_parts : list Part :=
  [ {| inlineData := None; text := Some "" |};
    {| inlineData := None; text := Some "Cannot process" |} ].

Definition refusal_candidate : Candidate :=
  {| content := Some {| parts := Some refusal_parts |} |}.

Definition refusal_response : Response := {| candidates := Some [refusal_candidate] |}.

Definition empty_response : Response :=
  {| candidates := Some [ {| content := Some {| parts := Some [] |} |} ] |}.

Definition network_error : Exn :=
  {| exn_name := "TypeError"; exn_message := "Failed to fetch" |}.

(** ** Measures and predicates for sequences of events *)

(** [s] contains the character [c]. *)
Fixpoint contains (c : ascii) (s : string) : bool :=
  match s with
  | EmptyString => false
  | String c' s' => Ascii.eqb c' c || contains c s'
  end.

(** The result of [readAsDataURL] for a media type and a base64 content. *)
Definition data_url (mediaType base64 : string) : string :=
  "data:" +:+ mediaType +:+ ";base64," +:+ base64.

Definition is_click (ev : Event) : bool :=
  match ev with Click => true | _ => false end.

Definition is_service_end (ev : Event) : bool :=
  match ev with ServiceEnd _ _ => true | _ => false end.

(** A request built by the click listener from two images. *)
Definition click_request (request : Request) : Prop :=
  ∃ pe ou, request = generate_request pe ou.

(** The result image and the download link agree: same URL, and both hidden
    or both shown. *)
Definition result_consistent (p : Page) : Prop :=
  resultImage_src p = downloadButton_href p ∧
  ((resultImage_display p = "none" ∧ downloadButton_display p = "none") ∨
   (resultImage_display p = "block" ∧ downloadButton_display p = "inline-block")).

(** The loader is shown only while a call is awaited. *)
Definition loader_means_pending (w : World) : Prop :=
  loader_display (page w) = "block" → call_pending w.

(** Everything shown on [p] is shown on [p']: the results section, and for
    each slot the preview and the filled look of the drop zone. *)
Definition shown_le (p p' : Page) : Prop :=
  (resultsSection_visible p = true → resultsSection_visible p' = true) ∧
  ∀ type,
    (preview_visible (uploadUI type p) = true → preview_visible (uploadUI type p') = true) ∧
    (dropZone_has_image (uploadUI type p) = true →
     dropZone_has_image (uploadUI type p') = true).

(** * Properties *)

(** ** The model on concrete inputs *)

Example split_data_url : split "," "data:image/png;base64,ABC" !! 1 = Some "ABC".
Proof. reflexivity. Qed.

Example split_without_comma : split "," "data:" !! 1 = None.
Proof. reflexivity. Qed.

Example ready_world_slots :
  personFileData ready_world = Some photo_image ∧
  outfitFileData ready_world = Some dress_image ∧
  generateButton_disabled (page ready_world) = false.
Proof. repeat split. Qed.

Example text_only_response :
  let response :=
    {| candidates := Some [ {| content := Some {| parts := Some
         [ {| inlineData := None; text := Some "Cannot process" |} ] |} |} ] |} in
  let w := step (ServiceEnd 4 (inr response)) generating_world in
  errorContainer_textContent (page w) = "Cannot process" ∧
  resultImage_display (page w) = "none" ∧ downloadButton_display (page w) = "none".
Proof. repeat split. Qed.

Example second_call_while_generating :
  let w := run meanwhile generating_world in
  personFileData w = Some dress_image ∧ length (requests w) = 2 ∧
  ∃ request, tasks w !! 7 = Some (GenerateCall request).
Proof. repeat split. by eexists. Qed.

Example no_payload_response :
  errorContainer_textContent (page (step (ServiceEnd 4 (inr empty_response)) generating_world))
  = "Sorry, I couldn't generate an image. Please try again with different images.".
Proof. reflexivity. Qed.

(** ** Lists *)

Lemma find_first {A} (pred : A → bool) (before after : list A) (x : A) :
  Forall (λ y, pred y = false) before → pred x = true →
  List.find pred (before ++ x :: after) = Some x.
Proof.
  intros Hb Hx. induction Hb as [| y before Hy _ IH]; simpl.
  - by rewrite Hx.
  - by rewrite Hy.
Qed.


Lemma lookup_snoc {A} (l : list A) (x : A) : (l ++ [x]) !! length l = Some x.
Proof. by apply list_lookup_middle. Qed.

Lemma insert_snoc {A} (l : list A) (x y : A) : <[length l := y]> (l ++ [x]) = l ++ [y].
Proof. rewrite insert_app_r_alt by done. by rewrite Nat.sub_diag. Qed.

(** ** The task list *)


Lemma lookup_start_task_old (t t' : Task) (w : World) (n : nat) :
  tasks w !! n = Some t → tasks (start_task t' w) !! n = Some t.
Proof. intros H. unfold start_task; simpl. by apply lookup_app_l_Some. Qed.


Lemma lookup_settle_other (m n : nat) (t : Task) (w : World) :
  m ≠ n → tasks w !! n = Some t → tasks (settle m w) !! n = Some t.
Proof. intros Hne H. unfold settle; simpl. by rewrite list_lookup_insert_ne. Qed.

Lemma lookup_settle_same (n : nat) (t : Task) (w : World) :
  tasks w !! n = Some t → tasks (settle n w) !! n = Some Settled.
Proof.
  intros H. unfold settle; simpl. apply list_lookup_insert_eq.
  by apply lookup_lt_Some in H.
Qed.

(** ** Equations of the handlers *)

Ltac unfold_try :=
  unfold generate_resume, try_catch_finally, generate_try, js_bind, js_eval, js_do.

Lemma first_candidate_find_parts (pred : Part → bool) (response : Response)
    (c : Candidate) (cs : list Candidate) (ps : list Part) :
  candidates response = Some (c :: cs) → content c = Some {| parts := Some ps |} →
  first_candidate_find pred response = inr (List.find pred ps).
Proof. intros Hc Hct. unfold first_candidate_find. rewrite Hc. simpl. by rewrite Hct. Qed.

Lemma first_candidate_find_no_parts (pred : Part → bool) (response : Response)
    (c : Candidate) (cs : list Candidate) :
  candidates response = Some (c :: cs) → content c = Some {| parts := None |} →
  ∃ e, first_candidate_find pred response = inl e.
Proof.
  intros Hc Hct. unfold first_candidate_find. rewrite Hc. simpl. rewrite Hct. simpl.
  by eexists.
Qed.

Lemma generate_resume_throws (response : Response) (e : Exn) (w : World) :
  first_candidate_find (λ part, truthy (inlineData part)) response = inl e →
  generate_resume (inr response) w = generate_finally (generate_catch e w).
Proof. intros H. unfold_try. by rewrite H. Qed.

Lemma generate_resume_image (response : Response) (imagePart : Part)
    (image : EncodedImage) (w : World) :
  first_candidate_find (λ part, truthy (inlineData part)) response = inr (Some imagePart) →
  inlineData imagePart = Some image →
  generate_resume (inr response) w = generate_finally (show_image image w).
Proof. intros H Hi. unfold_try. rewrite H. simpl. by rewrite Hi. Qed.

Lemma generate_resume_no_image (response : Response) (textPart : option Part) (w : World) :
  first_candidate_find (λ part, truthy (inlineData part)) response = inr None →
  first_candidate_find (λ part, truthy_string (text part)) response = inr textPart →
  generate_resume (inr response) w =
  generate_finally (displayError (or_else (textPart ≫= text) no_image_message) w).
Proof. intros H Ht. unfold_try. rewrite H. simpl. by rewrite Ht. Qed.

Lemma step_ReadEnd_preview (w : World) (n : nat) (file : File) (type : SlotType)
    (result : string) :
  tasks w !! n = Some (PreviewRead file type) →
  step (ReadEnd n (Some result)) w = handleFileUpload_onload result file type (settle n w).
Proof. intros Hn. simpl. by rewrite Hn. Qed.

Lemma step_ReadEnd_part (w : World) (n : nat) (file : File) (type : SlotType)
    (result : string) :
  tasks w !! n = Some (PartRead file type) →
  step (ReadEnd n (Some result)) w =
  handleFileUpload_resume (fileToGenerativePart file (split "," result !! 1)) type
    (settle n w).
Proof. intros Hn. simpl. by rewrite Hn. Qed.

(** ** What the handlers leave alone *)

Lemma generate_resume_frame (outcome : Exn + Response) (w : World) :
  let w' := generate_resume outcome w in
  personFileData w' = personFileData w ∧ outfitFileData w' = outfitFileData w ∧
  requests w' = requests w ∧ tasks w' = tasks w.
Proof.
  unfold_try.
  destruct outcome as [e | response]; [done |].
  destruct (first_candidate_find _ response) as [e | [imagePart |]]; simpl; [done | |].
  - destruct (inlineData imagePart); [done |].
    by destruct (first_candidate_find _ response).
  - by destruct (first_candidate_find _ response).
Qed.

Lemma generate_resume_finalizes (outcome : Exn + Response) (w : World) :
  loader_display (page (generate_resume outcome w)) = "none" ∧
  generateButton_disabled (page (generate_resume outcome w)) = false.
Proof.
  unfold generate_resume, try_catch_finally.
  by destruct (generate_try outcome w) as [w1 [e | u]].
Qed.



Lemma generate_click_starts_call (w : World) (pe ou : EncodedImage) :
  personFileData w = Some pe → outfitFileData w = Some ou →
  tasks (generate_click w) !! length (tasks w) = Some (GenerateCall (generate_request pe ou)).
Proof.
  intros Hp Ho. unfold generate_click. rewrite Hp, Ho. apply lookup_snoc.
Qed.



(** ** The event loop *)






(** An awaited call stays awaited until the event that ends it. *)
Lemma step_keeps_call (ev : Event) (w : World) (n : nat) (request : Request) :
  tasks w !! n = Some (GenerateCall request) → ¬ ends_call n ev →
  tasks (step ev w) !! n = Some (GenerateCall request).
Proof.
  intros Hn Hev.
  destruct ev as [type files | type | type | type files | | m result | m outcome]; simpl.
  - unfold input_change.
    destruct (_ ≫= _) as [f |]; simpl; [by apply lookup_app_l_Some | done].
  - done.
  - done.
  - unfold dropZone_drop. destruct files as [files |]; [| done].
    case_bool_decide as Hlen; [| done].
    destruct (files !! 0) as [f |]; simpl; [by apply lookup_app_l_Some | done].
  - destruct (generateButton_disabled (page w)); [done |].
    unfold generate_click.
    destruct (personFileData w), (outfitFileData w); simpl; try done.
    by apply lookup_app_l_Some.
  - destruct (tasks w !! m) as [[file type | file type | request' |] |] eqn:Hm; try done.
    + assert (m ≠ n) by (intros ->; congruence).
      destruct result as [r |].
      * apply lookup_start_task_old. by apply lookup_settle_other.
      * by apply lookup_settle_other.
    + assert (m ≠ n) by (intros ->; congruence).
      destruct result as [r |]; simpl; by rewrite list_lookup_insert_ne.
  - destruct (tasks w !! m) as [[file type | file type | request' |] |] eqn:Hm; try done.
    assert (m ≠ n) by (intros ->; apply Hev; by eexists).
    destruct (generate_resume_frame outcome (settle m w)) as (_ & _ & _ & ->).
    by apply lookup_settle_other.
Qed.

Lemma run_keeps_call (evs : list Event) (w : World) (n : nat) (request : Request) :
  tasks w !! n = Some (GenerateCall request) → Forall (λ ev, ¬ ends_call n ev) evs →
  tasks (run evs w) !! n = Some (GenerateCall request).
Proof.
  intros Hn Hevs. revert w Hn.
  induction Hevs as [| ev evs Hev _ IH]; intros w Hn; simpl; [done |].
  apply IH. by apply step_keeps_call.
Qed.

(** Only a click calls the service. *)
Lemma step_requests (ev : Event) (w : World) :
  ev ≠ Click → requests (step ev w) = requests w.
Proof.
  intros Hev.
  destruct ev as [type files | type | type | type files | | n result | n outcome]; simpl;
    try done.
  - unfold input_change. by destruct (_ ≫= _).
  - unfold dropZone_drop. destruct files as [files |]; [| done].
    case_bool_decide as Hlen; [| done]. by destruct (files !! 0).
  - destruct (tasks w !! n) as [[file type | file type | request |] |]; try done.
    + by destruct result.
    + by destruct result.
  - destruct (tasks w !! n) as [[file type | file type | request |] |]; try done.
    by destruct (generate_resume_frame outcome (settle n w)) as (_ & _ & -> & _).
Qed.

(** ** The generate trigger and the two slots *)




(** ** Clicking without both images *)

(** C2.  When a slot is null the click listener only reports the
    missing-input message: it calls [displayError] and returns, the service is
    not called, nothing is awaited and the two slots keep their values. *)
Theorem generate_click_missing_input (w : World) :
  personFileData w = None ∨ outfitFileData w = None →
  let w' := generate_click w in
  w' = displayError missing_input_message w ∧
  errorContainer_textContent (page w') = "Please upload both a person and an outfit image." ∧
  errorContainer_display (page w') = "block" ∧
  requests w' = requests w ∧ tasks w' = tasks w ∧
  personFileData w' = personFileData w ∧ outfitFileData w' = outfitFileData w.
Proof.
  intros H w'.
  assert (E : w' = displayError missing_input_message w).
  { unfold w', generate_click.
    destruct H as [-> | ->]; [done |]. by destruct (personFileData w). }
  by rewrite E.
Qed.

Lemma generate_click_missing_input_witness :
  (personFileData initial_world = None ∨ outfitFileData initial_world = None) ∧
  let w' := generate_click initial_world in
  w' = displayError missing_input_message initial_world ∧
  errorContainer_textContent (page w') = "Please upload both a person and an outfit image." ∧
  errorContainer_display (page w') = "block" ∧
  requests w' = requests initial_world ∧ tasks w' = tasks initial_world ∧
  personFileData w' = personFileData initial_world ∧
  outfitFileData w' = outfitFileData initial_world.
Proof.
  split; [by left |].
  exact (generate_click_missing_input initial_world (or_introl eq_refl)).
Defined.

(** ** The response *)

(** C3.  When the first candidate of the response has a part with an image
    payload, the first such part is the result whatever texts the parts
    carry: the result image and the download link both get the data URI
    ["data:" ++ mediaType ++ ";base64," ++ content], both are made visible, and
    the error container is not written. *)
Theorem image_payload_is_the_result (w : World) (response : Response)
    (c : Candidate) (cs : list Candidate) (before after : list Part)
    (imagePart : Part) (mediaType base64 : string) :
  candidates response = Some (c :: cs) →
  content c = Some {| parts := Some (before ++ imagePart :: after) |} →
  Forall (λ p, inlineData p = None) before →
  inlineData imagePart = Some {| mimeType := mediaType; data := Some base64 |} →
  let w' := generate_resume (inr response) w in
  resultImage_src (page w') = "data:" +:+ mediaType +:+ ";base64," +:+ base64 ∧
  downloadButton_href (page w') = "data:" +:+ mediaType +:+ ";base64," +:+ base64 ∧
  resultImage_display (page w') = "block" ∧
  downloadButton_display (page w') = "inline-block" ∧
  errorContainer_textContent (page w') = errorContainer_textContent (page w) ∧
  errorContainer_display (page w') = errorContainer_display (page w).
Proof.
  intros Hc Hct Hb Hi w'. unfold w'.
  rewrite (generate_resume_image response imagePart
             {| mimeType := mediaType; data := Some base64 |}); [done | | done].
  rewrite (first_candidate_find_parts _ response c cs _ Hc Hct).
  f_equal. apply find_first.
  - eapply Forall_impl; [exact Hb |]. intros p Hp. simpl in Hp. by rewrite Hp.
  - by rewrite Hi.
Qed.

Lemma image_payload_is_the_result_witness :
  let w' := generate_resume (inr png_response) generating_world in
  resultImage_src (page w') = "data:image/png;base64,ABC" ∧
  downloadButton_href (page w') = "data:image/png;base64,ABC" ∧
  resultImage_display (page w') = "block" ∧
  downloadButton_display (page w') = "inline-block" ∧
  errorContainer_textContent (page w') = errorContainer_textContent (page generating_world) ∧
  errorContainer_display (page w') = errorContainer_display (page generating_world).
Proof.
  apply (image_payload_is_the_result generating_world png_response
           png_candidate [] [caption_part] [] png_part "image/png" "ABC").
  - reflexivity.
  - reflexivity.
  - constructor; [reflexivity | constructor].
  - reflexivity.
Defined.




(** ** Exceptions and finalization *)

(** C5 (amended).  When the awaited call throws, the exception is caught: the
    error container shows the fixed message of the [catch] block, the thrown
    value is appended to the console and the page does not depend on it.  A
    response whose first candidate has a content without parts ends the same
    way, through the [TypeError] of [.find]. *)
Theorem service_exception_is_caught (w : World) (e : Exn) :
  let w' := generate_resume (inl e) w in
  errorContainer_textContent (page w') =
    "An error occurred while generating the image. Please check the console for details." ∧
  errorContainer_display (page w') = "block" ∧
  console w' = console w ++ [e] ∧
  (∀ e', page (generate_resume (inl e') w) = page w') ∧
  (∀ response c cs,
     candidates response = Some (c :: cs) → content c = Some {| parts := None |} →
     ∃ e', generate_resume (inr response) w = generate_resume (inl e') w).
Proof.
  split; [done | split; [done | split; [done | split; [done |]]]].
  intros response c cs Hc Hct.
  destruct (first_candidate_find_no_parts (λ part, truthy (inlineData part))
              response c cs Hc Hct) as [e' He'].
  exists e'. by rewrite (generate_resume_throws response e' w He').
Qed.

(** C5, as stated, fails: the message of the [catch] block (line 158) is not
    the message shown for a response with neither image nor text (line 152). *)
Lemma exception_message_differs :
  errorContainer_textContent
    (page (generate_resume (inl network_error) generating_world))
  ≠ errorContainer_textContent
      (page (generate_resume (inr empty_response) generating_world)).
Proof. vm_compute. discriminate. Qed.

(** C6.  After a click that found both slots populated, whatever happens
    while the call is awaited and however the call ends (a response of any
    shape, or an exception), the end of the call hides the loader and
    re-enables the trigger, and nothing of the attempt stays pending. *)
Theorem finalization_always_runs (w : World) (pe ou : EncodedImage)
    (evs : list Event) (outcome : Exn + Response) :
  personFileData w = Some pe → outfitFileData w = Some ou →
  let call := length (tasks w) in
  Forall (λ ev, ¬ ends_call call ev) evs →
  let w' := step (ServiceEnd call outcome) (run evs (generate_click w)) in
  loader_display (page w') = "none" ∧
  generateButton_disabled (page w') = false ∧
  tasks w' !! call = Some Settled.
Proof.
  intros Hp Ho call Hevs w'.
  pose proof (run_keeps_call evs (generate_click w) call _
                (generate_click_starts_call w pe ou Hp Ho) Hevs) as Hcall.
  unfold w'. simpl. rewrite Hcall.
  destruct (generate_resume_frame outcome (settle call (run evs (generate_click w))))
    as (_ & _ & _ & Ht).
  split; [| split].
  - apply generate_resume_finalizes.
  - apply generate_resume_finalizes.
  - rewrite Ht. by apply (lookup_settle_same _ _ _ Hcall).
Qed.

Lemma finalization_always_runs_witness :
  personFileData ready_world = Some photo_image ∧
  outfitFileData ready_world = Some dress_image ∧
  let w' := step (ServiceEnd 4 (inl network_error))
                 (run meanwhile (generate_click ready_world)) in
  loader_display (page w') = "none" ∧
  generateButton_disabled (page w') = false ∧
  tasks w' !! 4 = Some Settled.
Proof.
  split; [reflexivity | split; [reflexivity |]].
  apply (finalization_always_runs ready_world photo_image dress_image
           meanwhile (inl network_error)).
  - reflexivity.
  - reflexivity.
  - repeat (constructor; [intros [o H]; discriminate |]). constructor.
Defined.

(** ** Uploads *)

(** C7.  In every world, when the second read of an upload ends with a
    result, the slot of the upload holds the newly encoded image (the type of
    the file and what follows the first comma of the result) and the other
    slot keeps its value. *)
Theorem upload_overwrites_slot (w : World) (n : nat) (file : File) (type : SlotType)
    (result : string) :
  tasks w !! n = Some (PartRead file type) →
  let w' := step (ReadEnd n (Some result)) w in
  FileData type w' = Some {| mimeType := file_type file; data := split "," result !! 1 |} ∧
  FileData (other type) w' = FileData (other type) w.
Proof.
  intros Hn w'. unfold w'. rewrite (step_ReadEnd_part _ _ _ _ _ Hn).
  by destruct type.
Qed.

Lemma upload_overwrites_slot_witness :
  let w := run [Drop person (Some [dress]); ReadEnd 5 (Some dress_url)] generating_world in
  tasks w !! 6 = Some (PartRead dress person) ∧
  let w' := step (ReadEnd 6 (Some dress_url)) w in
  FileData person w' = Some dress_image ∧
  FileData outfit w' = FileData outfit w.
Proof.
  split; [reflexivity |].
  apply (upload_overwrites_slot
           (run [Drop person (Some [dress]); ReadEnd 5 (Some dress_url)] generating_world)
           6 dress person dress_url).
  reflexivity.
Defined.

(** C8.  A click that finds both slots populated first resets the page (the
    error container is hidden, the loader shown, the trigger disabled) and
    then calls the service once, with the person image, the outfit image and
    the fixed instruction as parts; the end of the call makes no further
    call, and no event other than a click makes one. *)
Theorem generate_click_issues_one_request (w : World) (pe ou : EncodedImage) :
  personFileData w = Some pe → outfitFileData w = Some ou →
  let request := generate_request pe ou in
  let w' := generate_click w in
  w' = generateContent request (reset_ui w) ∧
  errorContainer_display (page (reset_ui w)) = "none" ∧
  loader_display (page (reset_ui w)) = "block" ∧
  generateButton_disabled (page (reset_ui w)) = true ∧
  requests (reset_ui w) = requests w ∧
  page w' = page (reset_ui w) ∧
  requests w' = requests w ++ [request] ∧
  contents_parts request =
    [ {| inlineData := Some pe; text := None |};
      {| inlineData := Some ou; text := None |};
      {| inlineData := None; text := Some prompt |} ] ∧
  (∀ outcome, requests (generate_resume outcome w') = requests w ++ [request]) ∧
  (∀ ev w1, ev ≠ Click → requests (step ev w1) = requests w1).
Proof.
  intros Hp Ho request w'.
  assert (E : w' = generateContent request (reset_ui w)).
  { unfold w', generate_click. by rewrite Hp, Ho. }
  rewrite E.
  do 8 (split; [done |]). split.
  - intros outcome.
    by destruct (generate_resume_frame outcome (generateContent request (reset_ui w)))
      as (_ & _ & -> & _).
  - intros ev w1. apply step_requests.
Qed.

Lemma generate_click_issues_one_request_witness :
  personFileData ready_world = Some photo_image ∧
  outfitFileData ready_world = Some dress_image ∧
  requests (generate_click ready_world) =
    requests ready_world ++ [generate_request photo_image dress_image].
Proof.
  split; [reflexivity | split; [reflexivity |]].
  apply (generate_click_issues_one_request ready_world photo_image dress_image);
    reflexivity.
Defined.

(** C9.  When a read of an upload fails, be it the read for the preview or
    the read for the encoded image, neither slot changes, the page is left as
    it was (no message is shown), nothing is logged, and the upload has no
    continuation left. *)
Theorem failed_read_is_silent (w : World) (n : nat) (file : File) (type : SlotType) :
  tasks w !! n = Some (PreviewRead file type) ∨ tasks w !! n = Some (PartRead file type) →
  let w' := step (ReadEnd n None) w in
  FileData type w' = FileData type w ∧
  FileData (other type) w' = FileData (other type) w ∧
  page w' = page w ∧
  console w' = console w ∧
  tasks w' = <[n := Settled]> (tasks w).
Proof.
  intros [Hn | Hn]; simpl; rewrite Hn; simpl; by destruct type.
Qed.

Lemma failed_read_is_silent_witness :
  let w := step (Drop person (Some [dress])) ready_world in
  tasks w !! 4 = Some (PreviewRead dress person) ∧
  let w' := step (ReadEnd 4 None) w in
  FileData person w' = FileData person w ∧
  FileData outfit w' = FileData outfit w ∧
  page w' = page w ∧
  console w' = console w ∧
  tasks w' = <[4 := Settled]> (tasks w).
Proof.
  split; [reflexivity |].
  apply (failed_read_is_silent (step (Drop person (Some [dress])) ready_world)
           4 dress person).
  left. reflexivity.
Defined.

(** C10.  [handleFileUpload] without a file returns the world it was given; a
    change or drop event whose file list is absent or empty changes neither
    slot, neither preview nor the trigger and starts no read; and a drop of
    one or more files reads only the first one: once its two reads have
    ended, the slot holds the encoding of the first file, the other slot is
    as before and nothing else has been started. *)
Theorem upload_without_file_is_noop (type : SlotType) (w : World) :
  handleFileUpload None type w = w ∧
  (∀ files ev, no_file files → ev = InputChange type files ∨ ev = Drop type files →
     let w' := step ev w in
     personFileData w' = personFileData w ∧ outfitFileData w' = outfitFileData w ∧
     previews w' = previews w ∧
     generateButton_disabled (page w') = generateButton_disabled (page w) ∧
     tasks w' = tasks w) ∧
  (∀ first rest,
     let w' := step (Drop type (Some (first :: rest))) w in
     tasks w' = tasks w ++ [PreviewRead first type] ∧
     personFileData w' = personFileData w ∧ outfitFileData w' = outfitFileData w ∧
     ∀ result1 result2,
       let read1 := length (tasks w) in
       let w'' := run [ReadEnd read1 (Some result1); ReadEnd (S read1) (Some result2)] w' in
       preview_src (uploadUI type (page w'')) = result1 ∧
       FileData type w'' =
         Some {| mimeType := file_type first; data := split "," result2 !! 1 |} ∧
       FileData (other type) w'' = FileData (other type) w ∧
       tasks w'' = tasks w ++ [Settled; Settled]).
Proof.
  split; [done | split].
  - intros files ev Hf Hev w'. unfold w'.
    destruct Hev as [-> | ->], Hf as [-> | ->], type; done.
  - intros first rest w'.
    split; [done | split; [done | split; [done |]]].
    intros result1 result2 read1 w''.
    assert (H1 : tasks w' !! read1 = Some (PreviewRead first type))
      by apply lookup_snoc.
    assert (T2 : tasks (step (ReadEnd read1 (Some result1)) w') =
                 (tasks w ++ [Settled]) ++ [PartRead first type]).
    { rewrite (step_ReadEnd_preview _ _ _ _ _ H1). simpl. f_equal. apply insert_snoc. }
    assert (H2 : tasks (step (ReadEnd read1 (Some result1)) w') !! S read1 =
                 Some (PartRead first type)).
    { rewrite T2. apply list_lookup_middle. rewrite length_app. simpl. unfold read1. lia. }
    unfold w'', run.
    rewrite (step_ReadEnd_part _ _ _ _ _ H2).
    split; [| split; [| split]].
    + rewrite (step_ReadEnd_preview _ _ _ _ _ H1). by destruct type.
    + by destruct type.
    + rewrite (step_ReadEnd_preview _ _ _ _ _ H1). by destruct type.
    + change (tasks (handleFileUpload_resume ?p ?t (settle ?n ?x)))
        with (<[n := Settled]> (tasks x)).
      rewrite T2.
      replace (S read1) with (length (tasks w ++ [Settled]))
        by (rewrite length_app; simpl; unfold read1; lia).
      rewrite insert_snoc. by rewrite <- app_assoc.
Qed.

(** * Further properties of the handlers *)

(** ** Data URLs *)

Lemma append_cons (c : ascii) (a b : string) : String c a +:+ b = String c (a +:+ b).
Proof. reflexivity. Qed.

Lemma append_assoc (a b c : string) : (a +:+ b) +:+ c = a +:+ (b +:+ c).
Proof.
  induction a as [| x a IH]; [reflexivity |].
  by rewrite !append_cons, IH.
Qed.

Lemma contains_append (c : ascii) (a b : string) :
  contains c (a +:+ b) = contains c a || contains c b.
Proof.
  induction a as [| c' a IH]; [reflexivity |].
  rewrite append_cons. simpl. rewrite IH. by destruct (Ascii.eqb c' c).
Qed.

Lemma split_no_separator (sep : ascii) (s : string) :
  contains sep s = false → split sep s = [s].
Proof.
  induction s as [| c s IH]; simpl; [done |].
  destruct (Ascii.eqb c sep); simpl; [done |].
  intros H. by rewrite (IH H).
Qed.

Lemma split_at_first (sep : ascii) (a b : string) :
  contains sep a = false → split sep (a +:+ String sep b) = a :: split sep b.
Proof.
  induction a as [| c a IH].
  - intros _. change ("" +:+ String sep b) with (String sep b). simpl.
    by rewrite Ascii.eqb_refl.
  - rewrite append_cons. simpl.
    destruct (Ascii.eqb c sep); simpl; [done |].
    intros H. by rewrite (IH H).
Qed.

Lemma data_url_split (mediaType base64 : string) :
  contains "," mediaType = false → contains "," base64 = false →
  split "," (data_url mediaType base64) = ["data:" +:+ mediaType +:+ ";base64"; base64].
Proof.
  intros Hm Hb.
  replace (data_url mediaType base64)
    with (("data:" +:+ mediaType +:+ ";base64") +:+ String "," base64).
  - rewrite split_at_first.
    + by rewrite (split_no_separator _ _ Hb).
    + rewrite !contains_append, Hm. reflexivity.
  - unfold data_url. rewrite !append_assoc. reflexivity.
Qed.

(** X1.  Reading a file whose data URL is well formed (no comma in the media
    type nor in the base64 text) stores exactly the media type and the base64
    text in the slot, and the template of the result image (line 144) builds
    the reader's data URL back from that stored image. *)
Theorem data_url_round_trip (w w1 : World) (n : nat) (file : File) (type : SlotType)
    (base64 : string) :
  tasks w !! n = Some (PartRead file type) →
  contains "," (file_type file) = false → contains "," base64 = false →
  let result := data_url (file_type file) base64 in
  let image := {| mimeType := file_type file; data := Some base64 |} in
  FileData type (step (ReadEnd n (Some result)) w) = Some image ∧
  resultImage_src (page (show_image image w1)) = result.
Proof.
  intros Hn Hm Hb result image. split; [| reflexivity].
  rewrite (step_ReadEnd_part _ _ _ _ _ Hn).
  unfold result. rewrite (data_url_split _ _ Hm Hb).
  by destruct type.
Qed.

Lemma data_url_round_trip_witness :
  let w := run [Drop person (Some [dress]); ReadEnd 5 (Some dress_url)] generating_world in
  FileData person (step (ReadEnd 6 (Some (data_url "image/jpeg" "/9j/4AAQ"))) w)
    = Some dress_image ∧
  resultImage_src (page (show_image dress_image initial_world))
    = data_url "image/jpeg" "/9j/4AAQ".
Proof.
  apply (data_url_round_trip
           (run [Drop person (Some [dress]); ReadEnd 5 (Some dress_url)] generating_world)
           initial_world 6 dress person "/9j/4AAQ"); reflexivity.
Defined.

(** X2.  A reader result without a comma still populates the slot: the image
    has the type of the file and no data ([split(',')[1]] is [undefined]),
    and it counts as an upload for the trigger. *)
Theorem upload_without_comma (w : World) (n : nat) (file : File) (type : SlotType)
    (result : string) :
  tasks w !! n = Some (PartRead file type) → contains "," result = false →
  let w' := step (ReadEnd n (Some result)) w in
  FileData type w' = Some {| mimeType := file_type file; data := None |} ∧
  (generateButton_disabled (page w') = false ↔ is_Some (FileData (other type) w)).
Proof.
  intros Hn Hr w'. unfold w'.
  rewrite (step_ReadEnd_part _ _ _ _ _ Hn), (split_no_separator _ _ Hr).
  split; [by destruct type |].
  unfold handleFileUpload_resume, updateGenerateButtonState.
  destruct type; simpl.
  - destruct (outfitFileData w); simpl; split; try done; try (by eauto);
      intros [? ?]; discriminate.
  - destruct (personFileData w); simpl; split; try done; try (by eauto);
      intros [? ?]; discriminate.
Qed.

Lemma upload_without_comma_witness :
  let w := run [Drop person (Some [dress]); ReadEnd 4 (Some "data:")] ready_world in
  let w' := step (ReadEnd 5 (Some "data:")) w in
  FileData person w' = Some {| mimeType := "image/jpeg"; data := None |} ∧
  (generateButton_disabled (page w') = false ↔ is_Some (FileData outfit w)).
Proof.
  apply (upload_without_comma
           (run [Drop person (Some [dress]); ReadEnd 4 (Some "data:")] ready_world)
           5 dress person "data:"); reflexivity.
Defined.

(** ** Who writes the slots *)

Lemma FileData_generate_resume (outcome : Exn + Response) (type : SlotType) (w : World) :
  FileData type (generate_resume outcome w) = FileData type w.
Proof.
  destruct (generate_resume_frame outcome w) as (Hp & Ho & _).
  destruct type; simpl; congruence.
Qed.

Lemma FileData_handleFileUpload (file : option File) (type type' : SlotType) (w : World) :
  FileData type' (handleFileUpload file type w) = FileData type' w.
Proof. destruct file, type'; reflexivity. Qed.

Lemma step_slot_cases (ev : Event) (type : SlotType) (w : World) :
  FileData type (step ev w) = FileData type w ∨
  ∃ n file result,
    ev = ReadEnd n (Some result) ∧ tasks w !! n = Some (PartRead file type) ∧
    FileData type (step ev w) =
      Some {| mimeType := file_type file; data := split "," result !! 1 |}.
Proof.
  destruct ev as [t files | t | t | t files | | n result | n outcome]; simpl.
  - left. unfold input_change. by rewrite FileData_handleFileUpload; destruct type.
  - left. by destruct type.
  - left. by destruct type.
  - left. unfold dropZone_drop. destruct files as [files |]; [| by destruct type].
    case_bool_decide as Hlen; [| by destruct type].
    rewrite FileData_handleFileUpload. by destruct type.
  - left. destruct (generateButton_disabled (page w)); [done |].
    unfold generate_click.
    destruct (personFileData w) eqn:Hp, (outfitFileData w) eqn:Ho;
      destruct type; simpl; by rewrite ?Hp, ?Ho.
  - destruct (tasks w !! n) as [[file t | file t | request |] |] eqn:Hn;
      try (by left).
    + left. destruct result; by destruct type.
    + destruct result as [r |]; [| left; by destruct type].
      destruct t, type; try (left; reflexivity);
        right; exists n, file, r; by repeat split.
  - left.
    destruct (tasks w !! n) as [[file t | file t | request |] |] eqn:Hn; try done.
    rewrite FileData_generate_resume. by destruct type.
Qed.

(** X3.  A slot changes only when the second read of an upload to that slot
    ends with a result: no click, drag, drop, change, failed read or end of a
    call writes a slot. *)
Theorem slot_written_only_by_upload (ev : Event) (type : SlotType) (w : World) :
  FileData type (step ev w) ≠ FileData type w →
  ∃ n file result,
    ev = ReadEnd n (Some result) ∧ tasks w !! n = Some (PartRead file type).
Proof.
  intros Hne. destruct (step_slot_cases ev type w) as [H | (n & file & result & H)];
    [done |].
  exists n, file, result. by destruct H as (? & ? & _).
Qed.

Lemma slot_written_only_by_upload_witness :
  let w := run [InputChange person (Some [photo]); ReadEnd 0 (Some photo_url)] initial_world in
  ∃ n file result,
    ReadEnd 1 (Some photo_url) = ReadEnd n (Some result) ∧
    tasks w !! n = Some (PartRead file person).
Proof.
  apply (slot_written_only_by_upload (ReadEnd 1 (Some photo_url)) person
           (run [InputChange person (Some [photo]); ReadEnd 0 (Some photo_url)] initial_world)).
  vm_compute. discriminate.
Defined.

(** X4.  No handler ever clears a slot: a slot that holds an image holds one
    after any sequence of events. *)
Theorem slot_never_cleared (evs : list Event) (type : SlotType) (w : World) :
  is_Some (FileData type w) → is_Some (FileData type (run evs w)).
Proof.
  revert w. induction evs as [| ev evs IH]; intros w Hw; simpl; [done |].
  apply IH.
  destruct (step_slot_cases ev type w) as [-> | (n & file & result & _ & _ & ->)];
    [done | by eexists].
Qed.

Lemma slot_never_cleared_witness :
  is_Some (FileData person ready_world) ∧
  is_Some (FileData person (run (Click :: meanwhile ++ [ServiceEnd 4 (inl network_error)])
                                ready_world)).
Proof.
  split; [by eexists |].
  apply (slot_never_cleared (Click :: meanwhile ++ [ServiceEnd 4 (inl network_error)])
           person ready_world).
  by eexists.
Defined.

(** ** The preview and the two listeners of a slot *)

(** X5.  When the first read of an upload ends with a result, the preview of
    that slot shows it at once, before the image is encoded: both slots, the
    trigger and the other slot's zone are unchanged and the second read is
    started.  If that second read then fails, the preview keeps showing the
    new file while the slot still holds its previous value. *)
Theorem preview_precedes_encoding (w : World) (n : nat) (file : File) (type : SlotType)
    (result : string) :
  tasks w !! n = Some (PreviewRead file type) →
  let w1 := step (ReadEnd n (Some result)) w in
  let w2 := step (ReadEnd (length (tasks w)) None) w1 in
  preview_src (uploadUI type (page w1)) = result ∧
  preview_visible (uploadUI type (page w1)) = true ∧
  dropZone_has_image (uploadUI type (page w1)) = true ∧
  uploadUI (other type) (page w1) = uploadUI (other type) (page w) ∧
  personFileData w1 = personFileData w ∧ outfitFileData w1 = outfitFileData w ∧
  generateButton_disabled (page w1) = generateButton_disabled (page w) ∧
  tasks w1 !! length (tasks w) = Some (PartRead file type) ∧
  preview_src (uploadUI type (page w2)) = result ∧
  FileData type w2 = FileData type w.
Proof.
  intros Hn w1 w2.
  assert (E1 : w1 = handleFileUpload_onload result file type (settle n w))
    by apply (step_ReadEnd_preview _ _ _ _ _ Hn).
  assert (H1 : tasks w1 !! length (tasks w) = Some (PartRead file type)).
  { rewrite E1. unfold handleFileUpload_onload, start_task, settle. simpl.
    apply list_lookup_middle. by rewrite length_insert. }
  assert (E2 : w2 = settle (length (tasks w)) w1).
  { unfold w2. simpl. by rewrite H1. }
  rewrite E2. split; [| split; [| split; [| split; [| split; [| split; [| split;
    [| split; [exact H1 | split]]]]]]]]; rewrite E1; by destruct type.
Qed.

Lemma preview_precedes_encoding_witness :
  let w := step (Drop person (Some [dress])) ready_world in
  let w1 := step (ReadEnd 4 (Some dress_url)) w in
  let w2 := step (ReadEnd 5 None) w1 in
  tasks w !! 4 = Some (PreviewRead dress person) ∧
  preview_src (uploadUI person (page w2)) = dress_url ∧
  FileData person w2 = Some photo_image.
Proof.
  split; [reflexivity |].
  pose proof (preview_precedes_encoding (step (Drop person (Some [dress])) ready_world)
                4 dress person dress_url eq_refl) as H.
  split; [apply H | apply H].
Defined.

(** X6.  A drop of at least one file does what leaving the zone and then
    picking the same files with the input does: the two listeners differ only
    in the border colour that the drop resets. *)
Theorem drop_is_dragleave_then_change (type : SlotType) (first : File) (rest : list File)
    (w : World) :
  step (Drop type (Some (first :: rest))) w =
  run [DragLeave type; InputChange type (Some (first :: rest))] w.
Proof. by destruct type. Qed.

(** ** Responses of unexpected shape *)

(** X7.  A response without candidates, with an empty list of candidates or
    whose first candidate has no content is not an error for the script:
    nothing is thrown or logged and the fixed no-image message is shown. *)
Theorem response_without_content (response : Response) (w : World) :
  candidates response = None ∨ candidates response = Some [] ∨
  (∃ c cs, candidates response = Some (c :: cs) ∧ content c = None) →
  let w' := generate_resume (inr response) w in
  w' = generate_finally (displayError no_image_message w) ∧
  errorContainer_textContent (page w') =
    "Sorry, I couldn't generate an image. Please try again with different images." ∧
  console w' = console w.
Proof.
  intros H w'.
  assert (E : ∀ pred, first_candidate_find pred response = inr None).
  { intros pred. unfold first_candidate_find.
    destruct H as [-> | [-> | (c & cs & -> & Hc)]]; simpl; [done | done |].
    by rewrite Hc. }
  assert (Ew : w' = generate_finally (displayError no_image_message w)).
  { unfold w'. by rewrite (generate_resume_no_image response None w (E _) (E _)). }
  by rewrite Ew.
Qed.

Lemma response_without_content_witness :
  let w' := generate_resume (inr {| candidates := Some [] |}) generating_world in
  w' = generate_finally (displayError no_image_message generating_world) ∧
  errorContainer_textContent (page w') =
    "Sorry, I couldn't generate an image. Please try again with different images." ∧
  console w' = console generating_world.
Proof.
  apply (response_without_content {| candidates := Some [] |} generating_world).
  right; left. reflexivity.
Defined.

(** X8.  Only the first candidate is read: two responses with the same first
    candidate end the attempt in the same way, so an image carried by a later
    candidate is never shown. *)
Theorem later_candidates_ignored (response response' : Response) (w : World) :
  candidates response ≫= (λ cs : list Candidate, cs !! 0) =
  candidates response' ≫= (λ cs : list Candidate, cs !! 0) →
  generate_resume (inr response) w = generate_resume (inr response') w.
Proof.
  intros H. unfold_try. unfold first_candidate_find. by rewrite H.
Qed.

Lemma later_candidates_ignored_witness :
  let w' := generate_resume
              (inr {| candidates := Some [refusal_candidate; png_candidate] |})
              generating_world in
  w' = generate_resume (inr refusal_response) generating_world ∧
  errorContainer_textContent (page w') = "Cannot process" ∧
  resultImage_display (page w') = "none".
Proof.
  split; [| split; reflexivity].
  apply (later_candidates_ignored
           {| candidates := Some [refusal_candidate; png_candidate] |}
           refusal_response generating_world).
  reflexivity.
Defined.

(** ** Clicks and calls *)

(** X9.  A second click right after a click does nothing more: a disabled
    trigger fires no event, the first click of an attempt disables the
    trigger, and the missing-input report is the same when repeated. *)
Theorem double_click (w : World) : run [Click; Click] w = run [Click] w.
Proof.
  simpl. destruct (generateButton_disabled (page w)) eqn:Hd; [by rewrite Hd |].
  unfold generate_click.
  destruct (personFileData w) eqn:Hp, (outfitFileData w) eqn:Ho; simpl;
    rewrite ?Hd, ?Hp, ?Ho; reflexivity.
Qed.

(** X10.  An upload that completes while both slots are then populated
    enables the trigger even when a call is awaited, and the next click calls
    the service with the images the slots hold at that moment. *)
Theorem upload_reenables_trigger (w : World) (n : nat) (file : File) (type : SlotType)
    (result : string) :
  tasks w !! n = Some (PartRead file type) → is_Some (FileData (other type) w) →
  let w1 := step (ReadEnd n (Some result)) w in
  generateButton_disabled (page w1) = false ∧
  ∃ pe ou, personFileData w1 = Some pe ∧ outfitFileData w1 = Some ou ∧
           requests (step Click w1) = requests w ++ [generate_request pe ou].
Proof.
  intros Hn [img Ho] w1.
  assert (E : w1 = handleFileUpload_resume
                     (fileToGenerativePart file (split "," result !! 1)) type (settle n w))
    by apply (step_ReadEnd_part _ _ _ _ _ Hn).
  assert (Hd : generateButton_disabled (page w1) = false).
  { rewrite E. destruct type; simpl in Ho; simpl; by rewrite Ho. }
  assert (Hs : ∃ pe ou, personFileData w1 = Some pe ∧ outfitFileData w1 = Some ou).
  { rewrite E. destruct type; simpl in Ho; simpl; rewrite Ho; eauto. }
  split; [exact Hd |].
  destruct Hs as (pe & ou & Hp & Hou). exists pe, ou.
  split; [exact Hp | split; [exact Hou |]].
  cbn [step]. rewrite Hd. unfold generate_click. rewrite Hp, Hou.
  rewrite E. reflexivity.
Qed.

Lemma upload_reenables_trigger_witness :
  let w := run [Drop person (Some [dress]); ReadEnd 5 (Some dress_url)] generating_world in
  let w1 := step (ReadEnd 6 (Some dress_url)) w in
  call_pending w ∧
  generateButton_disabled (page w) = true ∧
  generateButton_disabled (page w1) = false ∧
  ∃ pe ou, personFileData w1 = Some pe ∧ outfitFileData w1 = Some ou ∧
           requests (step Click w1) = requests w ++ [generate_request pe ou].
Proof.
  split; [by exists 4, (generate_request photo_image dress_image) |].
  split; [reflexivity |].
  apply (upload_reenables_trigger
           (run [Drop person (Some [dress]); ReadEnd 5 (Some dress_url)] generating_world)
           6 dress person dress_url); [reflexivity | by eexists].
Defined.

(** ** What a run of events adds *)

Lemma step_requests_cases (ev : Event) (w : World) :
  requests (step ev w) = requests w ∨
  (ev = Click ∧ ∃ pe ou, requests (step ev w) = requests w ++ [generate_request pe ou]).
Proof.
  destruct ev as [t files | t | t | t files | | n result | n outcome];
    try (left; by apply step_requests).
  simpl. destruct (generateButton_disabled (page w)); [by left |].
  unfold generate_click.
  destruct (personFileData w) as [pe |], (outfitFileData w) as [ou |]; try (by left).
  right. split; [done |]. by exists pe, ou.
Qed.

Lemma generate_resume_console (outcome : Exn + Response) (w : World) :
  console (generate_resume outcome w) = console w ∨
  ∃ e, console (generate_resume outcome w) = console w ++ [e].
Proof.
  unfold_try.
  destruct outcome as [e | response]; [right; by exists e |].
  destruct (first_candidate_find _ response) as [e | [imagePart |]]; simpl;
    [right; by exists e | |].
  - destruct (inlineData imagePart); [by left |].
    destruct (first_candidate_find _ response) as [e |]; [right; by exists e | by left].
  - destruct (first_candidate_find _ response) as [e |]; [right; by exists e | by left].
Qed.

Lemma step_console_cases (ev : Event) (w : World) :
  console (step ev w) = console w ∨
  (is_service_end ev = true ∧ ∃ e, console (step ev w) = console w ++ [e]).
Proof.
  destruct ev as [t files | t | t | t files | | n result | n outcome]; simpl.
  - left. unfold input_change. by destruct (_ ≫= _).
  - by left.
  - by left.
  - left. unfold dropZone_drop. destruct files as [files |]; [| done].
    case_bool_decide as Hlen; [| done]. by destruct (files !! 0).
  - left. destruct (generateButton_disabled (page w)); [done |].
    unfold generate_click. by destruct (personFileData w), (outfitFileData w).
  - left. destruct (tasks w !! n) as [[file t | file t | request |] |]; try done.
    + by destruct result.
    + by destruct result.
  - destruct (tasks w !! n) as [[file t | file t | request |] |]; try (by left).
    destruct (generate_resume_console outcome (settle n w)) as [H | H];
      [by left | right; by split].
Qed.

Lemma requests_grow (evs : list Event) (w : World) :
  ∃ new, requests (run evs w) = requests w ++ new.
Proof.
  revert w. induction evs as [| ev evs IH]; intros w; simpl.
  - exists []. by rewrite app_nil_r.
  - destruct (IH (step ev w)) as (new & E).
    destruct (step_requests_cases ev w) as [Hs | (_ & pe & ou & Hs)].
    + exists new. by rewrite E, Hs.
    + exists (generate_request pe ou :: new). by rewrite E, Hs, <- app_assoc.
Qed.

(** X11.  Whatever the events, the calls made to the service are appended to
    those already made, there is at most one new call per click event, and
    every new call carries two images and the fixed instruction. *)
Theorem calls_of_a_run (evs : list Event) (w : World) :
  ∃ new, requests (run evs w) = requests w ++ new ∧
         length new ≤ length (List.filter is_click evs) ∧
         Forall click_request new.
Proof.
  revert w. induction evs as [| ev evs IH]; intros w; simpl.
  - exists []. by rewrite app_nil_r.
  - destruct (IH (step ev w)) as (new & E & Hlen & Hall).
    destruct (step_requests_cases ev w) as [Hs | (-> & pe & ou & Hs)].
    + exists new. rewrite E, Hs. split; [done | split; [| done]].
      destruct (is_click ev); simpl; lia.
    + exists (generate_request pe ou :: new). rewrite E, Hs, <- app_assoc.
      split; [done | split; [simpl; lia |]].
      constructor; [by exists pe, ou | done].
Qed.

(** X12.  The console only grows, and by at most one entry for each event
    that ends a call: uploads, drags and clicks log nothing. *)
Theorem console_of_a_run (evs : list Event) (w : World) :
  ∃ new, console (run evs w) = console w ++ new ∧
         length new ≤ length (List.filter is_service_end evs).
Proof.
  revert w. induction evs as [| ev evs IH]; intros w; simpl.
  - exists []. by rewrite app_nil_r.
  - destruct (IH (step ev w)) as (new & E & Hlen).
    destruct (step_console_cases ev w) as [Hs | (Hev & e & Hs)].
    + exists new. rewrite E, Hs. split; [done |].
      destruct (is_service_end ev); simpl; lia.
    + exists (e :: new). rewrite E, Hs, <- app_assoc, Hev.
      split; [done | simpl; lia].
Qed.

(** X13.  The request of an attempt is fixed by the click: whatever is
    uploaded or clicked while the call is awaited, the call still carries the
    two images the slots held at the click, even after the slots changed. *)
Theorem request_captured_at_click (w : World) (pe ou : EncodedImage) (evs : list Event) :
  personFileData w = Some pe → outfitFileData w = Some ou →
  Forall (λ ev, ¬ ends_call (length (tasks w)) ev) evs →
  let w' := run evs (generate_click w) in
  tasks w' !! length (tasks w) = Some (GenerateCall (generate_request pe ou)) ∧
  requests w' !! length (requests w) = Some (generate_request pe ou).
Proof.
  intros Hp Ho Hevs w'. split.
  - apply run_keeps_call; [by apply generate_click_starts_call | done].
  - destruct (requests_grow evs (generate_click w)) as (new & E).
    unfold w'. rewrite E. apply lookup_app_l_Some.
    unfold generate_click. rewrite Hp, Ho. apply lookup_snoc.
Qed.

Lemma request_captured_at_click_witness :
  personFileData ready_world = Some photo_image ∧
  let w' := run meanwhile (generate_click ready_world) in
  personFileData w' = Some dress_image ∧
  tasks w' !! 4 = Some (GenerateCall (generate_request photo_image dress_image)) ∧
  requests w' !! 0 = Some (generate_request photo_image dress_image).
Proof.
  split; [reflexivity | split; [reflexivity |]].
  apply (request_captured_at_click ready_world photo_image dress_image meanwhile).
  - reflexivity.
  - reflexivity.
  - repeat (constructor; [intros [o H]; discriminate |]). constructor.
Defined.

(** ** Invariants of the page *)

Lemma step_call_pending_kept (ev : Event) (w : World) :
  is_service_end ev = false → call_pending w → call_pending (step ev w).
Proof.
  intros Hev (n & request & Hn). exists n, request.
  apply step_keeps_call; [done |].
  intros [outcome ->]. discriminate.
Qed.

Lemma step_loader (ev : Event) (w : World) :
  loader_means_pending w → loader_means_pending (step ev w).
Proof.
  unfold loader_means_pending. intros Hw.
  destruct ev as [t files | t | t | t files | | n result | n outcome].
  - intros Hl. apply step_call_pending_kept; [done |]. apply Hw. revert Hl.
    simpl. unfold input_change. by destruct (_ ≫= _).
  - intros Hl. apply step_call_pending_kept; [done |]. by apply Hw.
  - intros Hl. apply step_call_pending_kept; [done |]. by apply Hw.
  - intros Hl. apply step_call_pending_kept; [done |]. apply Hw. revert Hl.
    simpl. unfold dropZone_drop. destruct files as [files |]; [| done].
    case_bool_decide as Hlen; [| done]. by destruct (files !! 0).
  - simpl. destruct (generateButton_disabled (page w)); [done |].
    unfold generate_click.
    destruct (personFileData w) as [pe |], (outfitFileData w) as [ou |];
      try (simpl; discriminate).
    intros _. exists (length (tasks w)), (generate_request pe ou). apply lookup_snoc.
  - intros Hl. apply step_call_pending_kept; [done |]. apply Hw. revert Hl.
    simpl. destruct (tasks w !! n) as [[file t | file t | request |] |]; try done.
    + by destruct result.
    + by destruct result.
  - simpl. destruct (tasks w !! n) as [[file t | file t | request |] |]; try done.
    destruct (generate_resume_finalizes outcome (settle n w)) as [-> _].
    discriminate.
Qed.

(** X14.  The busy indicator is never shown without a call being awaited: if
    that holds of a world, it holds after any sequence of events. *)
Theorem loader_only_while_pending (evs : list Event) (w : World) :
  loader_means_pending w → loader_means_pending (run evs w).
Proof.
  revert w. induction evs as [| ev evs IH]; intros w Hw; simpl; [done |].
  apply IH. by apply step_loader.
Qed.

Lemma loader_only_while_pending_witness :
  loader_means_pending initial_world ∧
  loader_means_pending (run (both_uploads ++ Click :: meanwhile) initial_world).
Proof.
  assert (H : loader_means_pending initial_world) by (intros H; discriminate).
  split; [exact H |].
  exact (loader_only_while_pending (both_uploads ++ Click :: meanwhile) initial_world H).
Defined.

Lemma generate_resume_result (outcome : Exn + Response) (w : World) :
  let p := page w in
  let p' := page (generate_resume outcome w) in
  (resultImage_src p' = resultImage_src p ∧ downloadButton_href p' = downloadButton_href p ∧
   resultImage_display p' = resultImage_display p ∧
   downloadButton_display p' = downloadButton_display p) ∨
  (resultImage_src p' = downloadButton_href p' ∧
   resultImage_display p' = "block" ∧ downloadButton_display p' = "inline-block").
Proof.
  unfold_try.
  destruct outcome as [e | response]; [by left |].
  destruct (first_candidate_find _ response) as [e | [imagePart |]]; simpl; [by left | |].
  - destruct (inlineData imagePart); [by right |].
    destruct (first_candidate_find _ response); by left.
  - destruct (first_candidate_find _ response); by left.
Qed.

Lemma step_result_consistent (ev : Event) (w : World) :
  result_consistent (page w) → result_consistent (page (step ev w)).
Proof.
  unfold result_consistent. intros Hw.
  destruct ev as [t files | t | t | t files | | n result | n outcome]; simpl.
  - unfold input_change. by destruct (_ ≫= _).
  - done.
  - done.
  - unfold dropZone_drop. destruct files as [files |]; [| done].
    case_bool_decide as Hlen; [| done]. by destruct (files !! 0).
  - destruct (generateButton_disabled (page w)); [done |].
    unfold generate_click.
    destruct (personFileData w), (outfitFileData w); simpl; try done.
    split; [apply Hw | by left].
  - destruct (tasks w !! n) as [[file t | file t | request |] |]; try done.
    + by destruct result.
    + by destruct result.
  - destruct (tasks w !! n) as [[file t | file t | request |] |]; try done.
    destruct (generate_resume_result outcome (settle n w))
      as [(-> & -> & -> & ->) | (-> & -> & ->)]; [done |].
    split; [done | by right].
Qed.

(** X15.  The download link always matches the result image: if they carry
    the same URL and are both hidden or both shown, they still do after any
    sequence of events. *)
Theorem download_matches_image (evs : list Event) (w : World) :
  result_consistent (page w) → result_consistent (page (run evs w)).
Proof.
  revert w. induction evs as [| ev evs IH]; intros w Hw; simpl; [done |].
  apply IH. by apply step_result_consistent.
Qed.

Lemma download_matches_image_witness :
  result_consistent (page initial_world) ∧
  result_consistent
    (page (run (both_uploads ++ [Click; ServiceEnd 4 (inr png_response)]) initial_world)).
Proof.
  assert (H : result_consistent (page initial_world)) by (split; [done | by left]).
  split; [exact H |].
  exact (download_matches_image (both_uploads ++ [Click; ServiceEnd 4 (inr png_response)])
           initial_world H).
Defined.

(** X16.  An attempt that ends with an image hides the error of an earlier
    attempt: after the click and the response the error container is hidden
    with its old text left in place, the results section and the image are
    shown, the loader is hidden and the trigger is enabled.  The URL is built
    from the media type and the data, or from the word undefined when the
    payload has no data. *)
Theorem successful_attempt_hides_error (w : World) (pe ou : EncodedImage)
    (response : Response) (c : Candidate) (cs : list Candidate)
    (before after : list Part) (imagePart : Part) (image : EncodedImage) :
  personFileData w = Some pe → outfitFileData w = Some ou →
  candidates response = Some (c :: cs) →
  content c = Some {| parts := Some (before ++ imagePart :: after) |} →
  Forall (λ p, inlineData p = None) before →
  inlineData imagePart = Some image →
  let w' := generate_resume (inr response) (generate_click w) in
  errorContainer_display (page w') = "none" ∧
  errorContainer_textContent (page w') = errorContainer_textContent (page w) ∧
  resultsSection_visible (page w') = true ∧
  resultImage_display (page w') = "block" ∧
  resultImage_src (page w') =
    "data:" +:+ mimeType image +:+ ";base64," +:+ interpolate (data image) ∧
  loader_display (page w') = "none" ∧
  generateButton_disabled (page w') = false.
Proof.
  intros Hp Ho Hc Hct Hb Hi w'. unfold w'.
  rewrite (generate_resume_image response imagePart image); [| | done].
  - unfold generate_click. rewrite Hp, Ho. repeat split.
  - rewrite (first_candidate_find_parts _ response c cs _ Hc Hct).
    f_equal. apply find_first.
    + eapply Forall_impl; [exact Hb |]. intros p Hq. simpl in Hq. by rewrite Hq.
    + by rewrite Hi.
Qed.

Lemma successful_attempt_hides_error_witness :
  let w := generate_resume (inl network_error) generating_world in
  errorContainer_display (page w) = "block" ∧
  let w' := generate_resume (inr png_response) (generate_click w) in
  errorContainer_display (page w') = "none" ∧
  errorContainer_textContent (page w') = errorContainer_textContent (page w) ∧
  resultsSection_visible (page w') = true ∧
  resultImage_display (page w') = "block" ∧
  resultImage_src (page w') = "data:image/png;base64,ABC" ∧
  loader_display (page w') = "none" ∧
  generateButton_disabled (page w') = false.
Proof.
  split; [reflexivity |].
  apply (successful_attempt_hides_error
           (generate_resume (inl network_error) generating_world)
           photo_image dress_image png_response png_candidate []
           [caption_part] [] png_part {| mimeType := "image/png"; data := Some "ABC" |}).
  - reflexivity.
  - reflexivity.
  - reflexivity.
  - reflexivity.
  - constructor; [reflexivity | constructor].
  - reflexivity.
Defined.

Lemma shown_le_refl (p : Page) : shown_le p p.
Proof. split; [done |]. by intros type. Qed.

Lemma shown_le_trans (p q r : Page) : shown_le p q → shown_le q r → shown_le p r.
Proof.
  intros [H1 H2] [H3 H4]. split; [auto |].
  intros type. destruct (H2 type), (H4 type). split; auto.
Qed.

Ltac shown_same := split; [done | intros [|]; by split].

Lemma generate_resume_shown (outcome : Exn + Response) (w : World) :
  shown_le (page w) (page (generate_resume outcome w)).
Proof.
  unfold_try.
  destruct outcome as [e | response]; [shown_same |].
  destruct (first_candidate_find _ response) as [e | [imagePart |]]; simpl;
    [shown_same | |].
  - destruct (inlineData imagePart); [shown_same |].
    destruct (first_candidate_find _ response); shown_same.
  - destruct (first_candidate_find _ response); shown_same.
Qed.

Lemma step_shown (ev : Event) (w : World) : shown_le (page w) (page (step ev w)).
Proof.
  destruct ev as [t files | t | t | t files | | n result | n outcome]; simpl.
  - unfold input_change. destruct (_ ≫= _); destruct t; shown_same.
  - destruct t; shown_same.
  - destruct t; shown_same.
  - unfold dropZone_drop. destruct files as [files |]; [| destruct t; shown_same].
    case_bool_decide as Hlen; [| destruct t; shown_same].
    destruct (files !! 0); destruct t; shown_same.
  - destruct (generateButton_disabled (page w)); [shown_same |].
    unfold generate_click.
    destruct (personFileData w), (outfitFileData w); shown_same.
  - destruct (tasks w !! n) as [[file t | file t | request |] |]; try shown_same.
    + destruct result; destruct t; shown_same.
    + destruct result; shown_same.
  - destruct (tasks w !! n) as [[file t | file t | request |] |]; try shown_same.
    apply (generate_resume_shown outcome (settle n w)).
Qed.

(** X17.  Nothing that was shown is hidden again: once the results section is
    visible, or a slot shows a preview and a filled drop zone, it stays so
    after any sequence of events (the script only adds these classes). *)
Theorem shown_stays_shown (evs : list Event) (w : World) :
  shown_le (page w) (page (run evs w)).
Proof.
  revert w. induction evs as [| ev evs IH]; intros w; simpl; [apply shown_le_refl |].
  eapply shown_le_trans; [apply step_shown | apply IH].
Qed.

(** X18.  After any end of an attempt the same attempt can be repeated at
    once: the trigger is enabled, the slots are as they were, and a further
    click calls the service again with the same request. *)
Theorem retry_after_any_outcome (w : World) (pe ou : EncodedImage)
    (outcome : Exn + Response) :
  personFileData w = Some pe → outfitFileData w = Some ou →
  let request := generate_request pe ou in
  let w1 := step (ServiceEnd (length (tasks w)) outcome) (generate_click w) in
  generateButton_disabled (page w1) = false ∧
  personFileData w1 = Some pe ∧ outfitFileData w1 = Some ou ∧
  requests (step Click w1) = requests w ++ [request; request].
Proof.
  intros Hp Ho request w1.
  assert (E : w1 = generate_resume outcome (settle (length (tasks w)) (generate_click w))).
  { unfold w1. simpl. by rewrite (generate_click_starts_call w pe ou Hp Ho). }
  destruct (generate_resume_frame outcome (settle (length (tasks w)) (generate_click w)))
    as (Fp & Fo & Fr & _).
  rewrite <- E in Fp, Fo, Fr.
  assert (Hd : generateButton_disabled (page w1) = false)
    by (rewrite E; apply generate_resume_finalizes).
  assert (Hp1 : personFileData w1 = Some pe).
  { rewrite Fp. unfold generate_click. by rewrite Hp, Ho. }
  assert (Ho1 : outfitFileData w1 = Some ou).
  { rewrite Fo. unfold generate_click. by rewrite Hp, Ho. }
  split; [done | split; [done | split; [done |]]].
  cbn [step]. rewrite Hd. unfold generate_click at 1. rewrite Hp1, Ho1.
  change (requests (generateContent ?r (reset_ui ?x))) with (requests x ++ [r]).
  rewrite Fr. unfold generate_click. rewrite Hp, Ho. simpl.
  by rewrite <- app_assoc.
Qed.

Lemma retry_after_any_outcome_witness :
  personFileData ready_world = Some photo_image ∧
  outfitFileData ready_world = Some dress_image ∧
  let request := generate_request photo_image dress_image in
  let w1 := step (ServiceEnd 4 (inl network_error)) (generate_click ready_world) in
  generateButton_disabled (page w1) = false ∧
  personFileData w1 = Some photo_image ∧ outfitFileData w1 = Some dress_image ∧
  requests (step Click w1) = requests ready_world ++ [request; request].
Proof.
  split; [reflexivity | split; [reflexivity |]].
  apply (retry_after_any_outcome ready_world photo_image dress_image
           (inl network_error)); reflexivity.
Defined.
